(** * Veris icon generator: [branding/generator/generate_icons.py]

    A shallow embedding of the script that rasterizes [icons/icon.svg]
    into the PNG icon set of the browser extension, and the properties of
    its batch loop: per-entry error isolation, ordering, the early exits
    and the frame of every write.

    The script talks to three things outside itself: the file system,
    standard output, and the two imaging libraries (cairosvg and Pillow).
    The file system is a finite map from path strings to file contents,
    standard output and the library calls are recorded in one
    chronological trace, and the libraries are a record of functions that
    every definition takes as an argument. *)

From stdpp Require Import gmap strings list pretty.
From Stdlib Require Import ZArith Ascii.

(** ** Python values, exceptions and outcomes *)

(** What a Python function hands back: [None] when it falls off its end
    or executes a bare [return], an integer otherwise. *)
Inductive value :=
| VNone
| VInt (n : Z).

(** An instance of [Exception]; [message] is what [str(e)] (and the
    f-string field [{e}]) yields.  Signals that derive from
    [BaseException] only are not errors of an entry; the one the script
    itself uses, [SystemExit], is the separate outcome [Exited]. *)
Record Exception := { message : string }.

Inductive outcome (A : Type) :=
| Returned (a : A)
| Raised (e : Exception)
| Exited (code : Z).

Arguments Returned {A} a.
Arguments Raised {A} e.
Arguments Exited {A} code.

(** ** The world *)

(** A Python [bytes] object, and the contents of a file. *)
Abbreviation bytes := string (only parsing).

(** One observable step of a run, in the order it happened. *)
Inductive event :=
| Printed (line : string)
| PathExists (p : string)
| Svg2Png (url : string) (output_width output_height : Z)
| ImageOpen
| ImageSave (p : string).

Record World := {
  files : gmap string bytes;
  trace : list event
}.

(** The two third-party modules behind [import cairosvg] and
    [from PIL import Image].  [cairosvg_svg2png] reads the file system it
    is given; [Image_save] is the only operation that can change it, and
    hands back the exception it raised, if any, together with the file
    system it left behind. *)
Record Library := {
  image : Type;
  cairosvg_svg2png : gmap string bytes -> string -> Z -> Z -> Exception + bytes;
  Image_open : bytes -> Exception + image;
  Image_size : image -> Z * Z;
  Image_save : image -> string -> gmap string bytes ->
               option Exception * gmap string bytes
}.


(** ** The state and exception monad *)

Definition M (A : Type) : Type := World -> outcome A * World.

Definition ret {A} (a : A) : M A := fun w => (Returned a, w).

Definition bind {A B} (m : M A) (k : A -> M B) : M B :=
  fun w =>
    match m w with
    | (Returned a, w') => k a w'
    | (Raised e, w') => (Raised e, w')
    | (Exited c, w') => (Exited c, w')
    end.

Notation "x <- m ;; k" := (bind m (fun x => k))
  (at level 100, m at next level, right associativity).
Notation "m ;; k" := (bind m (fun _ => k))
  (at level 100, right associativity).


(** [try: body / except Exception as e: handler e].  [SystemExit] is not
    an [Exception] and passes through. *)
Definition try_except {A} (body : M A) (handler : Exception -> M A) : M A :=
  fun w =>
    match body w with
    | (Raised e, w') => handler e w'
    | r => r
    end.

Definition log (ev : event) (w : World) : World :=
  {| files := files w; trace := trace w ++ [ev] |}.

Definition print (line : string) : M unit :=
  fun w => (Returned tt, log (Printed line) w).

(** [Path.exists()]. *)
Definition exists_ (p : string) : M bool :=
  fun w => (Returned (bool_decide (is_Some (files w !! p))), log (PathExists p) w).

(** [Path.__truediv__] for a relative right operand. *)
Definition joinpath (p q : string) : string := p +:+ "/" +:+ q.
Infix "</>" := joinpath (at level 40, left associativity).

(** ** Library calls as monadic actions *)

Section Program.

Variable L : Library.

Definition svg2png (url : string) (output_width output_height : Z) : M bytes :=
  fun w =>
    let w' := log (Svg2Png url output_width output_height) w in
    match cairosvg_svg2png L (files w) url output_width output_height with
    | inl e => (Raised e, w')
    | inr png_bytes => (Returned png_bytes, w')
    end.

Definition open (b : bytes) : M (image L) :=
  fun w =>
    let w' := log ImageOpen w in
    match Image_open L b with
    | inl e => (Raised e, w')
    | inr im => (Returned im, w')
    end.

Definition save (im : image L) (p : string) : M unit :=
  fun w =>
    let '(r, fs) := Image_save L im p (files w) in
    let w' := {| files := fs; trace := trace w ++ [ImageSave p] |} in
    match r with
    | Some e => (Raised e, w')
    | None => (Returned tt, w')
    end.

(** ** [svg_to_png] *)

Definition generated_line (output_path : string) (size : Z) : string :=
  "✓ Generated " +:+ output_path +:+ " (" +:+ pretty size +:+ "x" +:+ pretty size +:+ ")".

Definition failed_line (output_path : string) (e : Exception) : string :=
  "✗ Failed to generate " +:+ output_path +:+ ": " +:+ message e.

(** The body of the [try] block. *)
Definition convert (svg_path output_path : string) (size : Z) : M unit :=
  png_bytes <- svg2png svg_path size size ;;
  image <- open png_bytes ;;
  save image output_path ;;
  print (generated_line output_path size).

Definition svg_to_png (svg_path output_path : string) (size : Z) : M value :=
  try_except (convert svg_path output_path size)
             (fun e => print (failed_line output_path e)) ;;
  ret VNone.

(** ** [main] *)

Definition sizes : list (Z * string) :=
  [ (16%Z, "icon16.png");
    (32%Z, "icon32.png");
    (48%Z, "icon48.png");
    (128%Z, "icon128.png");
    (256%Z, "icon256.png");
    (440%Z, "icon440.png") ].

(** [for x in xs: body x]. *)
Fixpoint for_each {A} (xs : list A) (body : A -> M value) : M unit :=
  match xs with
  | [] => ret tt
  | x :: xs' => body x ;; for_each xs' body
  end.

Definition dq : string := String "034"%char EmptyString.
Definition nl : string := String "010"%char EmptyString.
Definition quoted (s : string) : string := dq +:+ s +:+ dq.

Definition not_found_line (svg_file : string) : string :=
  "✗ SVG file not found: " +:+ svg_file.

Definition icons_dir_of (dir : string) : string := dir </> "icons".
Definition svg_file_of (dir : string) : string := icons_dir_of dir </> "icon.svg".

Definition main (dir : string) : M value :=
  let icons_dir := icons_dir_of dir in
  let svg_file := svg_file_of dir in
  found <- exists_ svg_file ;;
  if negb found then
    print (not_found_line svg_file) ;;
    ret VNone
  else
    print "Generating Chrome Extension icons..." ;;
    print ("Source: " +:+ svg_file) ;;
    print "" ;;
    for_each sizes (fun '(size, filename) =>
      let output_path := icons_dir </> filename in
      svg_to_png svg_file output_path size) ;;
    print "" ;;
    print "Icon generation complete!" ;;
    print (nl +:+ "Manifest.json icon configuration:") ;;
    print (quoted "icons" +:+ ": {") ;;
    print ("  " +:+ quoted "16" +:+ ": " +:+ quoted "icons/icon16.png" +:+ ",") ;;
    print ("  " +:+ quoted "32" +:+ ": " +:+ quoted "icons/icon32.png" +:+ ",") ;;
    print ("  " +:+ quoted "48" +:+ ": " +:+ quoted "icons/icon48.png" +:+ ",") ;;
    print ("  " +:+ quoted "128" +:+ ": " +:+ quoted "icons/icon128.png") ;;
    print "}" ;;
    ret VNone.

End Program.

(** ** The script as a whole *)



(** ** Observations on a run *)

(** The lines written to standard output, one per [print] call. *)
Definition stdout (t : list event) : list string :=
  omap (fun ev => match ev with Printed line => Some line | _ => None end) t.

(** The rasterization requests, as (url, width, height). *)
Definition rasterizations (t : list event) : list (string * Z * Z) :=
  omap (fun ev => match ev with
                  | Svg2Png url ow oh => Some (url, ow, oh)
                  | _ => None
                  end) t.

(** The paths handed to [image.save]. *)
Definition saves (t : list event) : list string :=
  omap (fun ev => match ev with ImageSave p => Some p | _ => None end) t.

Fixpoint starts_with (pre s : string) : bool :=
  match pre, s with
  | EmptyString, _ => true
  | String a pre', String b s' => Ascii.eqb a b && starts_with pre' s'
  | String _ _, EmptyString => false
  end.

Definition is_confirmation (line : string) : bool :=
  starts_with "✓ Generated " line.

Definition confirmations (lines : list string) : nat :=
  length (filter (fun l => is_confirmation l = true) lines).

(** Width and height of the image stored in a file, as Pillow reads them
    ([Image.open(path).size]); [None] for a missing file or one that is
    not an image. *)
Definition image_dims (L : Library) (f : option bytes) : option (Z * Z) :=
  match f with
  | Some b =>
      match Image_open L b with
      | inr im => Some (Image_size L im)
      | inl _ => None
      end
  | None => None
  end.

(** The loop of [main] over an arbitrary target list. *)
Definition icon_loop (L : Library) (dir : string) (targets : list (Z * string)) : M unit :=
  for_each targets (fun '(size, filename) =>
    let output_path := icons_dir_of dir </> filename in
    svg_to_png L (svg_file_of dir) output_path size).

(** The world once [main] has found the source and printed its three
    opening lines. *)
Definition opening (dir : string) : list event :=
  [ PathExists (svg_file_of dir);
    Printed "Generating Chrome Extension icons...";
    Printed ("Source: " +:+ svg_file_of dir);
    Printed "" ].

Definition trailer : list string :=
  [ "";
    "Icon generation complete!";
    nl +:+ "Manifest.json icon configuration:";
    quoted "icons" +:+ ": {";
    "  " +:+ quoted "16" +:+ ": " +:+ quoted "icons/icon16.png" +:+ ",";
    "  " +:+ quoted "32" +:+ ": " +:+ quoted "icons/icon32.png" +:+ ",";
    "  " +:+ quoted "48" +:+ ": " +:+ quoted "icons/icon48.png" +:+ ",";
    "  " +:+ quoted "128" +:+ ": " +:+ quoted "icons/icon128.png";
    "}" ].

(** [print] of each line in turn. *)
Fixpoint print_lines (lines : list string) : M unit :=
  match lines with
  | [] => ret tt
  | l :: ls => print l ;; print_lines ls
  end.

Definition logs (evs : list event) (w : World) : World :=
  {| files := files w; trace := trace w ++ evs |}.

(** The outcome of each target's [try] block, each run from the world its
    predecessors left. *)
Fixpoint outcomes (L : Library) (dir : string) (targets : list (Z * string))
    (w : World) : list (outcome unit) :=
  match targets with
  | [] => []
  | (size, filename) :: rest =>
      let output_path := icons_dir_of dir </> filename in
      fst (convert L (svg_file_of dir) output_path size w)
      :: outcomes L dir rest (snd (svg_to_png L (svg_file_of dir) output_path size w))
  end.



(** The line [svg_to_png] prints for a target whose [try] block ended in
    [r] (nothing in the block exits, so the last case never shows). *)
Definition status_line (dir : string) (target : Z * string) (r : outcome unit) : string :=
  let '(size, filename) := target in
  let output_path := icons_dir_of dir </> filename in
  match r with
  | Returned _ => generated_line output_path size
  | Raised e => failed_line output_path e
  | Exited _ => ""
  end.

(** Entry number [k] of the target list succeeded in the run of [main]
    that starts in [w]. *)
Definition entry_succeeded (L : Library) (dir : string) (w : World) (k : nat) : Prop :=
  is_Some (files w !! svg_file_of dir)
  /\ outcomes L dir sizes (logs (opening dir) w) !! k = Some (Returned tt).

(** The events of one entry: the rasterization request first, its status
    line last, and between them the decoding and the save, as far as the
    entry got. *)
Definition entry_segment (dir : string) (target : Z * string) (seg : list event) : Prop :=
  let '(size, filename) := target in
  let output_path := icons_dir_of dir </> filename in
  exists middle line,
    seg = Svg2Png (svg_file_of dir) size size :: middle ++ [Printed line]
    /\ (middle = [] \/ middle = [ImageOpen] \/ middle = [ImageOpen; ImageSave output_path])
    /\ (line = generated_line output_path size
        \/ exists e, line = failed_line output_path e).

(** The four ways one call of [svg_to_png] can go, with the outcome of
    its [try] block and the world the call leaves. *)
Inductive entry_run (L : Library) (svg out : string) (size : Z) (w : World)
  : outcome unit -> World -> Prop :=
| raster_failed e :
    cairosvg_svg2png L (files w) svg size size = inl e ->
    entry_run L svg out size w (Raised e)
      (logs [Svg2Png svg size size; Printed (failed_line out e)] w)
| open_failed b e :
    cairosvg_svg2png L (files w) svg size size = inr b ->
    Image_open L b = inl e ->
    entry_run L svg out size w (Raised e)
      (logs [Svg2Png svg size size; ImageOpen; Printed (failed_line out e)] w)
| save_failed b im e fs :
    cairosvg_svg2png L (files w) svg size size = inr b ->
    Image_open L b = inr im ->
    Image_save L im out (files w) = (Some e, fs) ->
    entry_run L svg out size w (Raised e)
      {| files := fs;
         trace := trace w ++ [Svg2Png svg size size; ImageOpen; ImageSave out;
                              Printed (failed_line out e)] |}
| generated b im fs :
    cairosvg_svg2png L (files w) svg size size = inr b ->
    Image_open L b = inr im ->
    Image_save L im out (files w) = (None, fs) ->
    entry_run L svg out size w (Returned tt)
      {| files := fs;
         trace := trace w ++ [Svg2Png svg size size; ImageOpen; ImageSave out;
                              Printed (generated_line out size)] |}.

(** ** What the script relies on from the libraries *)

(** [cairosvg.svg2png(output_width=w, output_height=h)] renders at
    exactly w by h. *)
Definition rasterizes_to_size (L : Library) : Prop :=
  forall fs url ow oh b im,
    cairosvg_svg2png L fs url ow oh = inr b ->
    Image_open L b = inr im ->
    Image_size L im = (ow, oh).

(** A successful [image.save(path, 'PNG', optimize=True)] stores at the
    path an image of the same size, replacing what was there. *)
Definition save_keeps_size (L : Library) : Prop :=
  forall im p fs fs',
    Image_save L im p fs = (None, fs') ->
    exists b, fs' = <[p := b]> fs
              /\ image_dims L (Some b) = Some (Image_size L im).

(** [image.save] touches no path but its target, whether it succeeds or
    not. *)
Definition save_touches_only_target (L : Library) : Prop :=
  forall im p fs r fs' q,
    Image_save L im p fs = (r, fs') ->
    q <> p ->
    fs' !! q = fs !! q.

(** ** Two small libraries to run the script against *)

(** A three-byte image format: a tag, then width and height in one byte
    each, so only sizes 1 to 255 can be encoded. *)
Definition tiny_png (ow oh : Z) : bytes :=
  String "P" (String (ascii_of_N (Z.to_N ow))
                     (String (ascii_of_N (Z.to_N oh)) EmptyString)).

Definition encodable (ow oh : Z) : bool :=
  ((0 <? ow) && (ow <? 256) && (0 <? oh) && (oh <? 256))%Z.

Definition tiny_open (b : bytes) : Exception + (Z * Z) :=
  match b with
  | String "P" (String a (String c EmptyString)) =>
      inr (Z.of_N (N_of_ascii a), Z.of_N (N_of_ascii c))
  | _ => inl {| message := "cannot identify image file" |}
  end.

Definition tiny_lib : Library := {|
  image := Z * Z;
  cairosvg_svg2png fs url ow oh :=
    match fs !! url with
    | None => inl {| message := "No such file or directory: " +:+ url |}
    | Some _ =>
        if encodable ow oh then inr (tiny_png ow oh)
        else inl {| message := "unsupported size" |}
    end;
  Image_open := tiny_open;
  Image_size im := im;
  Image_save im p fs :=
    if encodable (fst im) (snd im)
    then (None, <[p := tiny_png (fst im) (snd im)]> fs)
    else (Some {| message := "encoder error" |}, fs)
|}.

(** The same library on a full disk: [image.save] opens its target for
    writing, which empties it, and then fails; a target it had to create
    is removed again, one that was there before stays emptied. *)
Definition full_disk_lib : Library := {|
  image := Z * Z;
  cairosvg_svg2png := cairosvg_svg2png tiny_lib;
  Image_open := tiny_open;
  Image_size im := im;
  Image_save im p fs :=
    (Some {| message := "No space left on device" |},
     match fs !! p with
     | Some _ => <[p := ""]> fs
     | None => fs
     end)
|}.

(** A checkout with the source icon and nothing generated yet. *)
Definition fresh_world : World :=
  {| files := {[ "ext/icons/icon.svg" := "<svg/>" ]}; trace := [] |}.



(** * Properties *)

(** ** The trace *)

Lemma logs_logs evs1 evs2 w : logs evs2 (logs evs1 w) = logs (evs1 ++ evs2) w.
Proof. unfold logs; simpl. by rewrite <- app_assoc. Qed.

Lemma log_logs ev w : log ev w = logs [ev] w.
Proof. reflexivity. Qed.

Lemma logs_nil w : logs [] w = w.
Proof. destruct w; unfold logs; simpl. by rewrite app_nil_r. Qed.

Lemma stdout_app t1 t2 : stdout (t1 ++ t2) = stdout t1 ++ stdout t2.
Proof. apply omap_app. Qed.

Lemma rasterizations_app t1 t2 :
  rasterizations (t1 ++ t2) = rasterizations t1 ++ rasterizations t2.
Proof. apply omap_app. Qed.

Lemma saves_app t1 t2 : saves (t1 ++ t2) = saves t1 ++ saves t2.
Proof. apply omap_app. Qed.




(** ** One entry *)

Section Entry.

Variable L : Library.

(** Unfold the monadic plumbing of the goal. *)
Ltac run :=
  unfold svg_to_png, convert, try_except, bind, svg2png, open, save, print,
    ret, log, logs; simpl.

Lemma svg_to_png_run svg out size w :
  fst (svg_to_png L svg out size w) = Returned VNone
  /\ entry_run L svg out size w
       (fst (convert L svg out size w))
       (snd (svg_to_png L svg out size w)).
Proof.
  run.
  destruct (cairosvg_svg2png L (files w) svg size size) as [e|b] eqn:Hr; simpl.
  { split; [done|]. rewrite <- app_assoc. by apply raster_failed. }
  destruct (Image_open L b) as [e|im] eqn:Ho; simpl.
  { split; [done|]. rewrite <- !app_assoc. by eapply open_failed. }
  rewrite <- !app_assoc; simpl.
  destruct (Image_save L im out (files w)) as [[e|] fs] eqn:Hs; simpl.
  - split; [done|]. rewrite <- !app_assoc. by eapply save_failed.
  - split; [done|]. rewrite <- !app_assoc. by eapply generated.
Qed.

End Entry.

Lemma svg_to_png_eq L svg out size w :
  svg_to_png L svg out size w
  = (Returned VNone, snd (svg_to_png L svg out size w)).
Proof.
  destruct (svg_to_png_run L svg out size w) as [Hret _].
  destruct (svg_to_png L svg out size w); simpl in *; by subst.
Qed.

Lemma is_confirmation_generated out size :
  is_confirmation (generated_line out size) = true.
Proof. reflexivity. Qed.

Lemma is_confirmation_failed out e :
  is_confirmation (failed_line out e) = false.
Proof. reflexivity. Qed.

Lemma generated_not_failed out size out' e :
  generated_line out size <> failed_line out' e.
Proof. intros H. apply (f_equal is_confirmation) in H. discriminate H. Qed.

Lemma joinpath_inj p q1 q2 : p </> q1 = p </> q2 -> q1 = q2.
Proof.
  unfold joinpath. intros H.
  apply String.app_inj in H. by apply String.app_inj in H.
Qed.

Lemma entry_run_trace L dir size filename w r w' :
  entry_run L (svg_file_of dir) (icons_dir_of dir </> filename) size w r w' ->
  exists seg,
    trace w' = trace w ++ seg
    /\ entry_segment dir (size, filename) seg
    /\ stdout seg = [status_line dir (size, filename) r]
    /\ rasterizations seg = [(svg_file_of dir, size, size)].
Proof.
  intros Hrun. inversion Hrun; subst; simpl;
    (eexists; split; [reflexivity|]; split; [|split; reflexivity]).
  - exists [], (failed_line (icons_dir_of dir </> filename) e). split_and!; eauto 6.
  - exists [ImageOpen], (failed_line (icons_dir_of dir </> filename) e). split_and!; eauto 6.
  - exists [ImageOpen; ImageSave (icons_dir_of dir </> filename)],
      (failed_line (icons_dir_of dir </> filename) e). split_and!; eauto 6.
  - exists [ImageOpen; ImageSave (icons_dir_of dir </> filename)],
      (generated_line (icons_dir_of dir </> filename) size). split_and!; eauto 6.
Qed.

Lemma entry_run_frame L svg out size w r w' q :
  save_touches_only_target L ->
  entry_run L svg out size w r w' ->
  q <> out ->
  files w' !! q = files w !! q.
Proof.
  intros Hframe Hrun Hq. inversion Hrun; subst; simpl; try done.
  all: eapply Hframe; eauto.
Qed.

Lemma entry_run_dims L svg out size w w' :
  rasterizes_to_size L ->
  save_keeps_size L ->
  entry_run L svg out size w (Returned tt) w' ->
  image_dims L (files w' !! out) = Some (size, size).
Proof.
  intros Hsize Hsave Hrun. inversion Hrun as [| | |b im fs Hr Ho Hs]; subst; simpl.
  destruct (Hsave _ _ _ _ Hs) as (b' & -> & Hdims).
  rewrite lookup_insert_eq, Hdims. f_equal. eapply Hsize; eauto.
Qed.

(** ** The loop *)

Section Loop.

Variable L : Library.
Variable dir : string.

Lemma icon_loop_cons size filename rest w :
  icon_loop L dir ((size, filename) :: rest) w
  = icon_loop L dir rest
      (snd (svg_to_png L (svg_file_of dir) (icons_dir_of dir </> filename) size w)).
Proof.
  unfold icon_loop; simpl. unfold bind at 1.
  destruct (svg_to_png_run L (svg_file_of dir) (icons_dir_of dir </> filename) size w)
    as [Hret _].
  destruct (svg_to_png L (svg_file_of dir) (icons_dir_of dir </> filename) size w)
    as [r w1]; simpl in *. by subst.
Qed.

Lemma icon_loop_returns targets w :
  fst (icon_loop L dir targets w) = Returned tt.
Proof.
  revert w. induction targets as [|[size filename] rest IH]; intros w.
  - reflexivity.
  - rewrite icon_loop_cons. apply IH.
Qed.

Lemma icon_loop_eq targets w :
  icon_loop L dir targets w = (Returned tt, snd (icon_loop L dir targets w)).
Proof.
  pose proof (icon_loop_returns targets w) as Hret.
  destruct (icon_loop L dir targets w); simpl in *. by subst.
Qed.


(** The trace of the loop is the concatenation of one segment per
    target, in the order of the list. *)
Lemma icon_loop_trace targets w :
  exists segs,
    trace (snd (icon_loop L dir targets w)) = trace w ++ concat segs
    /\ Forall2 (entry_segment dir) targets segs
    /\ stdout (concat segs)
       = zip_with (status_line dir) targets (outcomes L dir targets w)
    /\ rasterizations (concat segs)
       = map (fun t => (svg_file_of dir, fst t, fst t)) targets.
Proof.
  revert w. induction targets as [|[size filename] rest IH]; intros w.
  - exists []. simpl. rewrite app_nil_r. split_and!; [done | constructor | done | done].
  - rewrite icon_loop_cons.
    destruct (svg_to_png_run L (svg_file_of dir) (icons_dir_of dir </> filename) size w)
      as [_ Hrun].
    apply entry_run_trace in Hrun as (seg & Ht & Hseg & Hout & Hras).
    destruct (IH (snd (svg_to_png L (svg_file_of dir)
                         (icons_dir_of dir </> filename) size w)))
      as (segs & Ht' & Hsegs & Hout' & Hras').
    exists (seg :: segs). split_and!.
    + rewrite Ht', Ht. simpl. by rewrite app_assoc.
    + by constructor.
    + simpl concat. rewrite stdout_app, Hout, Hout'. reflexivity.
    + simpl concat. rewrite rasterizations_app, Hras, Hras'. reflexivity.
Qed.

(** A path that is no target's output path keeps its content. *)
Lemma icon_loop_frame targets w q :
  save_touches_only_target L ->
  (forall size filename,
      (size, filename) ∈ targets -> q <> icons_dir_of dir </> filename) ->
  files (snd (icon_loop L dir targets w)) !! q = files w !! q.
Proof.
  intros Hframe. revert w.
  induction targets as [|[size filename] rest IH]; intros w Hq.
  - reflexivity.
  - rewrite icon_loop_cons, IH.
    + destruct (svg_to_png_run L (svg_file_of dir)
                  (icons_dir_of dir </> filename) size w) as [_ Hrun].
      eapply entry_run_frame; eauto. apply (Hq size). left.
    + intros s f Hin. apply (Hq s). by right.
Qed.

(** A target that succeeded still has its correctly sized file when the
    loop ends, provided no later target shares its file name. *)
Lemma icon_loop_dims targets w k size filename :
  rasterizes_to_size L ->
  save_keeps_size L ->
  save_touches_only_target L ->
  NoDup (map snd targets) ->
  targets !! k = Some (size, filename) ->
  outcomes L dir targets w !! k = Some (Returned tt) ->
  image_dims L (files (snd (icon_loop L dir targets w))
                !! (icons_dir_of dir </> filename))
  = Some (size, size).
Proof.
  intros Hsize Hsave Hframe. revert w k.
  induction targets as [|[s f] rest IH]; intros w k Hnd Hk Hok; [done|].
  rewrite icon_loop_cons.
  apply NoDup_cons in Hnd as [Hnotin Hnd].
  destruct (svg_to_png_run L (svg_file_of dir) (icons_dir_of dir </> f) s w)
    as [_ Hrun].
  destruct k as [|k]; simpl in Hk, Hok.
  - injection Hk as -> ->. injection Hok as Hok. rewrite Hok in Hrun.
    rewrite icon_loop_frame; [by eapply entry_run_dims | done |].
    intros s' f' Hin Heq. apply joinpath_inj in Heq. subst f'.
    apply Hnotin. apply list_elem_of_fmap. by exists (s', filename).
  - by eapply IH.
Qed.

End Loop.

(** ** [main] *)

Lemma main_unfold L dir :
  main L dir
  = (found <- exists_ (svg_file_of dir) ;;
     if negb found then
       print (not_found_line (svg_file_of dir)) ;;
       ret VNone
     else
       print "Generating Chrome Extension icons..." ;;
       print ("Source: " +:+ svg_file_of dir) ;;
       print "" ;;
       icon_loop L dir sizes ;;
       print_lines trailer ;;
       ret VNone).
Proof. reflexivity. Qed.

Lemma print_lines_eq lines w :
  print_lines lines w = (Returned tt, logs (map Printed lines) w).
Proof.
  revert w. induction lines as [|l ls IH]; intros w; simpl.
  - unfold ret. by rewrite logs_nil.
  - unfold bind, print. rewrite IH, log_logs, logs_logs. reflexivity.
Qed.

Lemma main_missing L dir w :
  files w !! svg_file_of dir = None ->
  main L dir w
  = (Returned VNone,
     logs [PathExists (svg_file_of dir); Printed (not_found_line (svg_file_of dir))] w).
Proof.
  intros Hnone. unfold main, bind, exists_, print, ret.
  rewrite bool_decide_false; [|rewrite Hnone; by intros [? ?]].
  simpl. by rewrite !log_logs, logs_logs.
Qed.

Lemma bind_returned {A B} (m : M A) (k : A -> M B) w a w' :
  m w = (Returned a, w') -> bind m k w = k a w'.
Proof. intros H. unfold bind. by rewrite H. Qed.

Lemma main_present L dir w :
  is_Some (files w !! svg_file_of dir) ->
  main L dir w
  = (Returned VNone,
     logs (map Printed trailer) (snd (icon_loop L dir sizes (logs (opening dir) w)))).
Proof.
  intros Hsome. rewrite main_unfold.
  erewrite bind_returned;
    [|unfold exists_; rewrite bool_decide_true by done; reflexivity].
  change (negb true) with false. cbv beta iota.
  do 3 (erewrite bind_returned; [|reflexivity]).
  erewrite bind_returned; [|apply icon_loop_eq].
  erewrite bind_returned; [|apply print_lines_eq].
  rewrite !log_logs, !logs_logs. reflexivity.
Qed.

(** Distinct targets write to distinct paths, and none of them is the
    source. *)
Lemma sizes_NoDup : NoDup (map snd sizes).
Proof. compute_done. Qed.

Lemma source_not_target dir size filename :
  (size, filename) ∈ sizes ->
  svg_file_of dir <> icons_dir_of dir </> filename.
Proof.
  intros Hin Heq. apply joinpath_inj in Heq. subst filename.
  unfold sizes in Hin.
  repeat (apply elem_of_cons in Hin as [Hin|Hin]; [discriminate Hin|]).
  by apply elem_of_nil in Hin.
Qed.

(** ** The sample libraries keep the contracts *)

Lemma tiny_open_png ow oh :
  encodable ow oh = true -> tiny_open (tiny_png ow oh) = inr (ow, oh).
Proof.
  unfold encodable. intros H.
  apply andb_prop in H as [H Hoh2]. apply andb_prop in H as [H Hoh1].
  apply andb_prop in H as [How1 How2].
  apply Z.ltb_lt in How1, How2, Hoh1, Hoh2.
  unfold tiny_open, tiny_png.
  rewrite !N_ascii_embedding by lia. rewrite !Z2N.id by lia. reflexivity.
Qed.

Lemma tiny_rasterizes : rasterizes_to_size tiny_lib.
Proof.
  intros fs url ow oh b im Hr Ho.
  change (Image_open tiny_lib b) with (tiny_open b) in Ho.
  change (Image_size tiny_lib im) with im.
  unfold tiny_lib in Hr; cbn [cairosvg_svg2png] in Hr.
  destruct (fs !! url); [|discriminate].
  destruct (encodable ow oh) eqn:He; [|discriminate].
  injection Hr as <-. rewrite tiny_open_png in Ho by done. by injection Ho as <-.
Qed.

Lemma tiny_save_keeps : save_keeps_size tiny_lib.
Proof.
  intros [ow oh] p fs fs' Hs.
  unfold tiny_lib in Hs; cbn [Image_save fst snd] in Hs.
  destruct (encodable ow oh) eqn:He; [|discriminate].
  injection Hs as <-. eexists; split; [reflexivity|].
  unfold image_dims. change (Image_open tiny_lib) with tiny_open.
  by rewrite tiny_open_png.
Qed.

Lemma tiny_save_frame : save_touches_only_target tiny_lib.
Proof.
  intros [ow oh] p fs r fs' q Hs Hq.
  unfold tiny_lib in Hs; cbn [Image_save fst snd] in Hs.
  destruct (encodable ow oh); injection Hs as <- <-; [|done].
  by rewrite lookup_insert_ne.
Qed.

Lemma full_disk_rasterizes : rasterizes_to_size full_disk_lib.
Proof. exact tiny_rasterizes. Qed.

Lemma full_disk_save_keeps : save_keeps_size full_disk_lib.
Proof. intros im p fs fs' Hs. discriminate Hs. Qed.

(** ** Error isolation *)


(** ** Size of the generated image *)

(** C2. When the [try] block of an entry runs to its end, the file at the
    entry's output path holds an image whose width and height are both
    the requested size, given that cairosvg renders at the size it is
    asked for and that Pillow's save keeps the size of the image. *)
Theorem generated_image_has_requested_size
    (L : Library) (svg out : string) (size : Z) (w : World) :
  rasterizes_to_size L ->
  save_keeps_size L ->
  fst (convert L svg out size w) = Returned tt ->
  image_dims L (files (snd (svg_to_png L svg out size w)) !! out)
  = Some (size, size).
Proof.
  intros Hsize Hsave Hok.
  destruct (svg_to_png_run L svg out size w) as [_ Hrun].
  rewrite Hok in Hrun. by eapply entry_run_dims.
Qed.

Lemma generated_image_has_requested_size_witness :
  fst (convert tiny_lib "ext/icons/icon.svg" "ext/icons/icon48.png" 48 fresh_world)
  = Returned tt
  /\ image_dims tiny_lib
       (files (snd (svg_to_png tiny_lib "ext/icons/icon.svg"
                      "ext/icons/icon48.png" 48 fresh_world))
        !! "ext/icons/icon48.png")
     = Some (48%Z, 48%Z).
Proof.
  split; [reflexivity|].
  apply (generated_image_has_requested_size tiny_lib);
    [exact tiny_rasterizes | exact tiny_save_keeps | reflexivity].
Defined.

(** ** Missing source *)



(** ** The target list and the order of the run *)




(** ** The result of [main] *)






(** ** Effect of one entry on its output path *)




(** ** The script from start to exit *)





(** ** The frame of one entry *)



(** ** Two runs *)

(** An entry of the target list that succeeded in a run of [main] has its
    correctly sized image at its output path when the run ends. *)
Lemma main_dims L dir w k size filename :
  rasterizes_to_size L ->
  save_keeps_size L ->
  save_touches_only_target L ->
  sizes !! k = Some (size, filename) ->
  entry_succeeded L dir w k ->
  image_dims L (files (snd (main L dir w)) !! (icons_dir_of dir </> filename))
  = Some (size, size).
Proof.
  intros Hsize Hsave Hframe Hk [Hsome Hok].
  rewrite main_present by done. cbn [snd logs files].
  by apply (icon_loop_dims L dir sizes _ k); [..|apply sizes_NoDup| |].
Qed.

(** C9. Take two runs of [main] with the same libraries, started in any
    two worlds (in particular two that hold the same source image, such
    as a checkout before and after a first run).  For every entry of the
    target list that succeeds in both, the image at its output path has
    the same dimensions after either run, size by size, whatever bytes
    each run wrote.  This relies on cairosvg rendering at the requested
    size, and on Pillow's save keeping the image size and writing to its
    target only. *)
Theorem reruns_agree_on_dimensions
    (L : Library) (dir : string) (w1 w2 : World)
    (k : nat) (size : Z) (filename : string) :
  rasterizes_to_size L ->
  save_keeps_size L ->
  save_touches_only_target L ->
  sizes !! k = Some (size, filename) ->
  entry_succeeded L dir w1 k ->
  entry_succeeded L dir w2 k ->
  image_dims L (files (snd (main L dir w1)) !! (icons_dir_of dir </> filename))
  = image_dims L (files (snd (main L dir w2)) !! (icons_dir_of dir </> filename))
  /\ image_dims L (files (snd (main L dir w1)) !! (icons_dir_of dir </> filename))
     = Some (size, size).
Proof.
  intros Hsize Hsave Hframe Hk Hok1 Hok2.
  rewrite !(main_dims L dir _ k size filename) by done. by split.
Qed.

Lemma reruns_agree_on_dimensions_witness :
  entry_succeeded tiny_lib "ext" fresh_world 0
  /\ entry_succeeded tiny_lib "ext" (snd (main tiny_lib "ext" fresh_world)) 0
  /\ image_dims tiny_lib
       (files (snd (main tiny_lib "ext" fresh_world))
        !! (icons_dir_of "ext" </> "icon16.png"))
     = image_dims tiny_lib
         (files (snd (main tiny_lib "ext" (snd (main tiny_lib "ext" fresh_world))))
          !! (icons_dir_of "ext" </> "icon16.png")).
Proof.
  assert (H1 : entry_succeeded tiny_lib "ext" fresh_world 0)
    by (split; [eexists; reflexivity | reflexivity]).
  assert (H2 : entry_succeeded tiny_lib "ext"
                 (snd (main tiny_lib "ext" fresh_world)) 0)
    by (split; [eexists; reflexivity | reflexivity]).
  split; [exact H1|]. split; [exact H2|].
  exact (proj1 (reruns_agree_on_dimensions tiny_lib "ext" fresh_world
                  (snd (main tiny_lib "ext" fresh_world)) 0 16 "icon16.png"
                  tiny_rasterizes tiny_save_keeps tiny_save_frame eq_refl H1 H2)).
Defined.

(** ** The trailer and the exit status *)

(** With every save failing and the two large sizes refused, no entry
    succeeds, and the trailer is printed all the same. *)
Example trailer_after_total_failure :
  confirmations (stdout (trace (snd (main full_disk_lib "ext" fresh_world)))) = 0%nat
  /\ exists lines,
       length lines = 9%nat
       /\ stdout (trace (snd (main full_disk_lib "ext" fresh_world)))
          = lines ++ trailer.
Proof.
  split; [reflexivity|].
  exists (take 9 (stdout (trace (snd (main full_disk_lib "ext" fresh_world))))).
  split; reflexivity.
Qed.


(** * Further properties of [svg_to_png] and [main] *)

(** ** What one call of [svg_to_png] prints and saves *)


(** X2. [image.save] is called at most once per entry, on the entry's
    output path, and only after both the rasterization and the decoding
    went through; an entry that makes no save call leaves the file
    system as it found it. *)
Theorem svg_to_png_saves_after_decoding_only
    (L : Library) (svg out : string) (size : Z) (w : World) :
  saves (trace (snd (svg_to_png L svg out size w)))
  = saves (trace w)
    ++ match cairosvg_svg2png L (files w) svg size size with
       | inr b =>
           match Image_open L b with
           | inr _ => [out]
           | inl _ => []
           end
       | inl _ => []
       end
  /\ match cairosvg_svg2png L (files w) svg size size with
     | inr b =>
         match Image_open L b with
         | inr im =>
             files (snd (svg_to_png L svg out size w))
             = snd (Image_save L im out (files w))
         | inl _ => files (snd (svg_to_png L svg out size w)) = files w
         end
     | inl _ => files (snd (svg_to_png L svg out size w)) = files w
     end.
Proof.
  destruct (svg_to_png_run L svg out size w) as [_ Hrun].
  inversion Hrun as [e Hr Hres Hw|b e Hr Ho Hres Hw
                    |b im e fs Hr Ho Hs Hres Hw|b im fs Hr Ho Hs Hres Hw];
    cbn [logs trace files]; rewrite saves_app, Hr; try rewrite Ho;
    try rewrite Hs; by split.
Qed.

(** ** The loop over any target list *)


(** ** Where a run writes *)

Lemma segment_saves dir size filename seg :
  entry_segment dir (size, filename) seg ->
  saves seg = [] \/ saves seg = [icons_dir_of dir </> filename].
Proof.
  intros (middle & line & Hseg & Hmid & _). subst seg.
  destruct Hmid as [Hm|[Hm|Hm]]; subst middle; simpl; auto.
Qed.

Lemma segments_saves dir targets segs :
  Forall2 (entry_segment dir) targets segs ->
  saves (concat segs)
    `sublist_of` map (fun t => icons_dir_of dir </> snd t) targets.
Proof.
  induction 1 as [|[size filename] seg targets segs Hseg _ IH]; [done|].
  simpl concat. rewrite saves_app. simpl map.
  destruct (segment_saves _ _ _ _ Hseg) as [Hs|Hs]; rewrite Hs; simpl.
  - by apply sublist_cons.
  - by apply sublist_skip.
Qed.

Lemma source_not_output dir :
  svg_file_of dir ∉ map (fun t => icons_dir_of dir </> snd t) sizes.
Proof.
  intros Hin. apply list_elem_of_fmap in Hin as ([size filename] & Heq & Hin).
  by eapply source_not_target.
Qed.

(** X4. In any run of [main], the paths handed to [image.save] are
    output paths of the target list, in list order and each at most
    once; the source path is never among them. *)
Theorem main_saves_to_target_paths_only (L : Library) (dir : string) (w : World) :
  exists paths,
    saves (trace (snd (main L dir w))) = saves (trace w) ++ paths
    /\ paths `sublist_of` map (fun t => icons_dir_of dir </> snd t) sizes
    /\ svg_file_of dir ∉ paths.
Proof.
  destruct (files w !! svg_file_of dir) as [src|] eqn:Hsrc.
  - rewrite main_present by (by exists src). cbn [snd logs trace].
    destruct (icon_loop_trace L dir sizes (logs (opening dir) w))
      as (segs & Ht & Hsegs & _ & _).
    exists (saves (concat segs)).
    pose proof (segments_saves dir sizes segs Hsegs) as Hsub.
    split_and!; [|done|].
    + rewrite Ht. cbn [logs trace]. rewrite !saves_app.
      change (saves (opening dir)) with (@nil string).
      assert (Hnil : saves (map Printed trailer) = []) by reflexivity.
      by rewrite Hnil, !app_nil_r.
    + intros Hin. apply (source_not_output dir).
      by eapply elem_of_sublist.
  - rewrite main_missing by done. exists []. cbn [snd logs trace].
    rewrite saves_app. split_and!; [done | apply sublist_nil_l | apply not_elem_of_nil].
Qed.

(** X5. For every script directory, the source path and the six output
    paths are seven different paths: no two targets write to the same
    file and none writes over the source. *)
Theorem source_and_output_paths_distinct (dir : string) :
  NoDup (svg_file_of dir :: map (fun t => icons_dir_of dir </> snd t) sizes).
Proof.
  apply NoDup_cons. split; [apply source_not_output|].
  change (map (fun t => icons_dir_of dir </> snd t) sizes)
    with (joinpath (icons_dir_of dir) <$> (map snd sizes)).
  apply NoDup_fmap_2; [|apply sizes_NoDup].
  intros f1 f2. apply joinpath_inj.
Qed.

(** X6. Given that Pillow's save writes to its target only, a whole run
    of [main] changes no path other than the six output paths, whether
    entries fail or not; in particular the source image has the content
    it had before the run. *)
Theorem main_changes_output_paths_only (L : Library) (dir : string) (w : World) :
  save_touches_only_target L ->
  (forall q,
     q ∉ map (fun t => icons_dir_of dir </> snd t) sizes ->
     files (snd (main L dir w)) !! q = files w !! q)
  /\ files (snd (main L dir w)) !! svg_file_of dir = files w !! svg_file_of dir.
Proof.
  intros Hframe.
  assert (Hq : forall q,
             q ∉ map (fun t => icons_dir_of dir </> snd t) sizes ->
             files (snd (main L dir w)) !! q = files w !! q).
  { intros q Hnotin.
    destruct (files w !! svg_file_of dir) as [src|] eqn:Hsrc.
    - rewrite main_present by (by exists src). cbn [snd logs files].
      rewrite icon_loop_frame; [done | done |].
      intros size filename Hin ->. apply Hnotin.
      apply list_elem_of_fmap. by exists (size, filename).
    - by rewrite main_missing. }
  split; [exact Hq|]. apply Hq, source_not_output.
Qed.

Lemma main_changes_output_paths_only_witness :
  files (snd (main tiny_lib "ext" fresh_world)) !! svg_file_of "ext"
  = Some "<svg/>".
Proof.
  exact (proj2 (main_changes_output_paths_only tiny_lib "ext" fresh_world
                  tiny_save_frame)).
Defined.

(** ** Running twice *)



